(** * plot_spectrum.py: a synthetic mid-infrared spectrum with a water line

    The script builds a wavelength axis with [np.linspace], a linear
    continuum, a Gaussian emission line and seeded Gaussian noise, adds them
    pointwise, hands the arrays to pyspeckit and matplotlib, saves one PNG
    and prints one line.

    Number model.  Python floats and numpy [float64] arrays are IEEE 754
    binary64 values; they are embedded as the kernel's primitive floats
    ([PrimFloat]), whose [+ - * /] round to nearest even exactly as numpy's
    elementwise operations do.  Two things the script calls are not
    arithmetic of that kind and live outside the repository: [np.exp] (the
    platform's exponential) and the random generator behind
    [np.random.default_rng] (SeedSequence, PCG64, the ziggurat sampler).
    They are the fields of the class [Numpy] below and stay abstract.

    Program model.  [main] is the list of its statements, each a function
    [State -> option State] over the local variables, a heap of Python
    objects addressed by reference, the pyplot state, the log of library
    calls and the outside world (entropy, standard output, files written).
    [None] is an uncaught exception. *)

From Stdlib Require Import ZArith List Floats Uint63 Bool Ascii Lia.
From stdpp Require Import base option list gmap strings.
Import ListNotations.

Set Warnings "-inexact-float,-register-all".

(** ** The numeric library the script relies on *)

(** What the script takes from numpy without the repository defining it. *)
Class Numpy := {
  (** [np.exp] on one binary64 value. *)
  np_exp : float -> float;
  (** The state of a bit generator (PCG64 for [default_rng]). *)
  BitGenerator : Type;
  (** [SeedSequence(seed)] expanded into the initial generator state. *)
  seed_state : Z -> BitGenerator;
  (** One draw of [standard_normal]: the sample and the advanced state. *)
  next_normal : BitGenerator -> float * BitGenerator
}.

Module Np.
Section Arrays.
Local Open Scope float_scope.

(** A Python int used where numpy wants a float64. *)
Definition float_of_nat (n : nat) : float :=
  PrimFloat.of_uint63 (Uint63.of_Z (Z.of_nat n)).

(** [np.arange(0, num)] as float64: 0.0, 1.0, ..., num-1. *)
Definition arange (num : nat) : list float :=
  map float_of_nat (seq 0 num).

(** [np.linspace(start, stop, num)] with the defaults [endpoint=True],
    [retstep=False], as numpy's [function_base.linspace] computes it:
    [div = num - 1], [step = (stop - start) / div],
    [y = arange(0, num) * step + start], and the last element overwritten
    with [stop] when [num > 1].  The branch on [step == 0] is numpy's
    handling of denormal steps. *)
Definition linspace (start stop : float) (num : nat) : list float :=
  let div := (num - 1)%nat in
  let delta := stop - start in
  let y := arange num in
  let y :=
    if (0 <? div)%nat then
      let step := delta / float_of_nat div in
      if step =? 0
      then map (fun v => v / float_of_nat div * delta) y
      else map (fun v => v * step) y
    else map (fun v => v * delta) y in
  let y := map (fun v => v + start) y in
  if (1 <? num)%nat then <[(num - 1)%nat := stop]> y else y.

(** Elementwise arithmetic between an array and a Python scalar. *)
Definition sub_scalar (a : list float) (c : float) : list float :=
  map (fun x => x - c) a.
Definition div_scalar (a : list float) (c : float) : list float :=
  map (fun x => x / c) a.
Definition scalar_mul (c : float) (a : list float) : list float :=
  map (fun x => c * x) a.
Definition scalar_add (c : float) (a : list float) : list float :=
  map (fun x => c + x) a.

(** Unary minus and [a ** 2]; numpy evaluates a scalar power of two as
    [np.square], one multiplication per element. *)
Definition neg (a : list float) : list float := map (fun x => - x) a.
Definition square (a : list float) : list float := map (fun x => x * x) a.

(** [a + b] on two one-dimensional arrays.  Shapes [(n,)] and [(m,)]
    broadcast when they agree or one of them is [1]; otherwise numpy
    raises [ValueError]. *)
Definition add (a b : list float) : option (list float) :=
  if (length a =? length b)%nat then
    Some (map (fun p => fst p + snd p) (combine a b))
  else match a, b with
       | [x], _ => Some (map (fun y => x + y) b)
       | _, [y] => Some (map (fun x => x + y) a)
       | _, _ => None
       end.

(** [a.max()]: the largest element, a NaN if there is one, [ValueError]
    on an empty array. *)
Definition max2 (x y : float) : float :=
  if PrimFloat.is_nan x then x
  else if PrimFloat.is_nan y then y
  else if x <? y then y else x.
Definition max (a : list float) : option float :=
  match a with
  | [] => None
  | x :: t => Some (fold_left max2 t x)
  end.

Context `{Numpy}.

(** [np.exp(a)]. *)
Definition exp (a : list float) : list float := map np_exp a.

(** [Generator.standard_normal(size)]: [size] successive draws. *)
Fixpoint standard_normal (g : BitGenerator) (size : nat)
  : list float * BitGenerator :=
  match size with
  | O => ([], g)
  | S n => let d := next_normal g in
           let r := standard_normal (snd d) n in
           (fst d :: fst r, snd r)
  end.

End Arrays.
End Np.

(** ** The right-hand sides of the script's assignments *)

Section Synthesis.
Local Open Scope float_scope.
Context `{Numpy}.

(** Lines 24-26. *)
Definition wave_min : float := 10.0.
Definition wave_max : float := 30.0.
Definition n_points : Z := 500.

(** Lines 36-38. *)
Definition line_center : float := 17.22.
Definition line_width : float := 0.15.
Definition line_ampl : float := 0.3.

(** Line 33: [1.0 + 0.02 * (wavelength - 20.0)]. *)
Definition continuum_of (wavelength : list float) : list float :=
  Np.scalar_add 1.0 (Np.scalar_mul 0.02 (Np.sub_scalar wavelength 20.0)).

(** Lines 40-41: [line_ampl * np.exp(-(wavelength - line_center)**2
    / (2.0 * line_width**2))].  Python reads [-x**2 / d] as [(-(x**2)) / d].
    On the array [**2] is [np.square], one multiplication per element.  On
    the Python float [line_width] it is the C library's [pow], which for
    the script's [0.15] returns the binary64 product [0.15 * 0.15]; the
    model takes the product, so it speaks for widths where the two agree
    and [pow] does not overflow. *)
Definition line_profile_of (ampl center width : float)
    (wavelength : list float) : list float :=
  Np.scalar_mul ampl
    (Np.exp (Np.div_scalar
               (Np.neg (Np.square (Np.sub_scalar wavelength center)))
               (2.0 * (width * width)))).

(** Line 45: [0.02 * rng.standard_normal(n_points)], with the generator
    state it leaves behind. *)
Definition noise_of (g : BitGenerator) (n : nat)
  : list float * BitGenerator :=
  let r := Np.standard_normal g n in (Np.scalar_mul 0.02 (fst r), snd r).

(** Line 47: [continuum + line_profile + noise], left to right. *)
Definition flux_of (continuum line_profile noise : list float)
  : option (list float) :=
  cl ← Np.add continuum line_profile; Np.add cl noise.

End Synthesis.

(** ** Python values, objects and the outside world *)

(** References to heap objects. *)
Definition loc := nat.

(** An argument of a call into pyspeckit or matplotlib, as written. *)
Inductive Arg :=
| AFloat (x : float)
| AInt (n : Z)
| ABool (b : bool)
| AStr (s : string)
| ARef (l : loc)
| ATuple (xs : list Arg)
| ADict (kvs : list (string * Arg))
| AKw (name : string) (a : Arg).

(** One call into an external collaborator. *)
Record Call := { callee : string; args : list Arg }.

(** One file written by the process. *)
Record FileWrite := {
  fw_path : string;
  fw_format : string;
  fw_dpi : Z;
  fw_figsize : float * float
}.

(** What exists outside the process: the entropy the operating system
    would hand to an unseeded generator, the lines on standard output and
    the files written so far. *)
Record World := {
  entropy : Z;
  stdout : list string;
  written : list FileWrite
}.

(** What a local variable holds. *)
Inductive Value :=
| VFloat (x : float)
| VInt (n : Z)
| VRef (l : loc).

Section Program.
Local Open Scope float_scope.
Local Open Scope string_scope.
Context `{Numpy}.

(** Heap objects.  Arrays and generators are numpy's; the axis wrapper,
    the spectrum and the figure belong to pyspeckit and matplotlib.  A
    [SpectroscopicAxis] is an array of its own, built from a copy of the
    values it is given; a [Spectrum] keeps a copy of its data in a buffer
    of its own and a reference to its axis object.  The copy is a masked
    array; its mask, which hides entries that are NaN or infinite, is not
    modelled. *)
Inductive Obj :=
| ONdarray (data : list float)
| OGenerator (g : BitGenerator)
| OSpectroscopicAxis (values : list float) (unit : string)
| OSpectrum (data : list float) (xarr : loc)
| OFigure (width height : float).

Record State := {
  locals : gmap string Value;
  heap : gmap loc Obj;
  next : loc;
  current_figure : option loc;
  calls : list Call;
  world : World
}.

(** A fresh interpreter entering [main]. *)
Definition initial (w : World) : State :=
  {| locals := ∅; heap := ∅; next := 0%nat; current_figure := None;
     calls := []; world := w |}.

(** A statement; [None] is an exception that nothing catches. *)
Definition Stmt := State -> option State.

Definition assign (x : string) (v : Value) (σ : State) : State :=
  {| locals := <[x := v]> (locals σ); heap := heap σ; next := next σ;
     current_figure := current_figure σ; calls := calls σ;
     world := world σ |}.

(** A new object: it takes the next free reference. *)
Definition alloc (o : Obj) (σ : State) : loc * State :=
  (next σ,
   {| locals := locals σ; heap := <[next σ := o]> (heap σ);
      next := S (next σ); current_figure := current_figure σ;
      calls := calls σ; world := world σ |}).

(** An update in place of the object behind a reference. *)
Definition store (l : loc) (o : Obj) (σ : State) : State :=
  {| locals := locals σ; heap := <[l := o]> (heap σ); next := next σ;
     current_figure := current_figure σ; calls := calls σ;
     world := world σ |}.

Definition log (c : Call) (σ : State) : State :=
  {| locals := locals σ; heap := heap σ; next := next σ;
     current_figure := current_figure σ; calls := calls σ ++ [c];
     world := world σ |}.

Definition set_current_figure (l : loc) (σ : State) : State :=
  {| locals := locals σ; heap := heap σ; next := next σ;
     current_figure := Some l; calls := calls σ; world := world σ |}.

Definition set_world (w : World) (σ : State) : State :=
  {| locals := locals σ; heap := heap σ; next := next σ;
     current_figure := current_figure σ; calls := calls σ; world := w |}.

(** [x = <new object>]. *)
Definition alloc_assign (x : string) (o : Obj) (σ : State) : State :=
  let '(l, σ1) := alloc o σ in assign x (VRef l) σ1.

(** Reading a local variable and what it refers to; an unbound name or a
    value of the wrong kind raises. *)
Definition get_float (x : string) (σ : State) : option float :=
  match locals σ !! x with Some (VFloat v) => Some v | _ => None end.
Definition get_int (x : string) (σ : State) : option Z :=
  match locals σ !! x with Some (VInt n) => Some n | _ => None end.
Definition get_ref (x : string) (σ : State) : option loc :=
  match locals σ !! x with Some (VRef l) => Some l | _ => None end.
Definition array_at (l : loc) (σ : State) : option (list float) :=
  match heap σ !! l with Some (ONdarray a) => Some a | _ => None end.
Definition get_array (x : string) (σ : State) : option (list float) :=
  l ← get_ref x σ; array_at l σ.

(** A Python int used as a count: negative counts raise [ValueError]. *)
Definition count_of_int (n : Z) : option nat :=
  if (n <? 0)%Z then None else Some (Z.to_nat n).

(** [np.random.default_rng(seed)]: an unseeded generator draws its seed
    from the operating system, a negative seed raises [ValueError]. *)
Definition default_rng (seed : option Z) (w : World) : option BitGenerator :=
  match seed with
  | None => Some (seed_state (entropy w))
  | Some s => if (s <? 0)%Z then None else Some (seed_state s)
  end.

(** The text after the last dot of a file name that has no directory
    part, as the script's. *)
Fixpoint extension_from (s : string) (found : option string) : option string :=
  match s with
  | EmptyString => found
  | String c t =>
      if Ascii.eqb c "."%char then extension_from t (Some t)
      else extension_from t found
  end.
Definition extension (path : string) : option string :=
  extension_from path None.

(** [plt.gcf()]: the current figure, or a new one of the default size. *)
Definition gcf (σ : State) : loc * State :=
  match current_figure σ with
  | Some l => (l, σ)
  | None => let '(l, σ1) := alloc (OFigure 6.4 4.8) σ in
            (l, set_current_figure l σ1)
  end.

(** [plt.savefig(fname, dpi=dpi)]: the current figure is written to
    [fname] in the format its extension names; without an extension
    matplotlib appends the default one, [png].  The format is taken to be
    one matplotlib supports and the directory to be writable, as for the
    script's [water_line_spectrum.png] in the working directory. *)
Definition savefig (fname : string) (dpi : Z) (σ : State) : option State :=
  let '(l, σ1) := gcf σ in
  match heap σ1 !! l with
  | Some (OFigure wd ht) =>
      let '(path, fmt) :=
        match extension fname with
        | Some e => (fname, e)
        | None => (fname ++ ".png", "png")
        end in
      let w := world σ1 in
      Some (set_world
              {| entropy := entropy w; stdout := stdout w;
                 written := written w ++
                   [{| fw_path := path; fw_format := fmt; fw_dpi := dpi;
                       fw_figsize := (wd, ht) |}] |}
              σ1)
  | _ => None
  end.

(** [print(line)]. *)
Definition print (line : string) (σ : State) : State :=
  let w := world σ in
  set_world {| entropy := entropy w; stdout := stdout w ++ [line];
               written := written w |} σ.

End Program.

(** ** The statements of [main], by source line *)

Section Script.
Local Open Scope float_scope.
Local Open Scope string_scope.
Context `{Numpy}.

(** [wave_min = 10.0] *)
Definition line24 : Stmt := fun σ =>
  Some (assign "wave_min" (VFloat wave_min) σ).

(** [wave_max = 30.0] *)
Definition line25 : Stmt := fun σ =>
  Some (assign "wave_max" (VFloat wave_max) σ).

(** [n_points = 500] *)
Definition line26 : Stmt := fun σ =>
  Some (assign "n_points" (VInt n_points) σ).

(** [wavelength = np.linspace(wave_min, wave_max, n_points)] *)
Definition line27 : Stmt := fun σ =>
  a ← get_float "wave_min" σ;
  b ← get_float "wave_max" σ;
  n ← get_int "n_points" σ;
  num ← count_of_int n;
  Some (alloc_assign "wavelength" (ONdarray (Np.linspace a b num)) σ).

(** [continuum = 1.0 + 0.02 * (wavelength - 20.0)] *)
Definition line33 : Stmt := fun σ =>
  w ← get_array "wavelength" σ;
  Some (alloc_assign "continuum" (ONdarray (continuum_of w)) σ).

(** [line_center = 17.22] *)
Definition line36 : Stmt := fun σ =>
  Some (assign "line_center" (VFloat line_center) σ).

(** [line_width = 0.15] *)
Definition line37 : Stmt := fun σ =>
  Some (assign "line_width" (VFloat line_width) σ).

(** [line_ampl = 0.3] *)
Definition line38 : Stmt := fun σ =>
  Some (assign "line_ampl" (VFloat line_ampl) σ).

(** [line_profile = line_ampl * np.exp(-(wavelength - line_center)**2
                                       / (2.0 * line_width**2))] *)
Definition line40 : Stmt := fun σ =>
  ampl ← get_float "line_ampl" σ;
  w ← get_array "wavelength" σ;
  center ← get_float "line_center" σ;
  width ← get_float "line_width" σ;
  Some (alloc_assign "line_profile"
          (ONdarray (line_profile_of ampl center width w)) σ).

(** [rng = np.random.default_rng(seed=12345)], for any seed literal. *)
Definition line44 (seed : Z) : Stmt := fun σ =>
  g ← default_rng (Some seed) (world σ);
  Some (alloc_assign "rng" (OGenerator g) σ).

(** [noise = 0.02 * rng.standard_normal(n_points)]: the draws advance
    the generator in place. *)
Definition line45 : Stmt := fun σ =>
  r ← get_ref "rng" σ;
  n ← get_int "n_points" σ;
  size ← count_of_int n;
  match heap σ !! r with
  | Some (OGenerator g) =>
      let d := noise_of g size in
      Some (alloc_assign "noise" (ONdarray (fst d))
              (store r (OGenerator (snd d)) σ))
  | _ => None
  end.

(** [flux = continuum + line_profile + noise] *)
Definition line47 : Stmt := fun σ =>
  c ← get_array "continuum" σ;
  p ← get_array "line_profile" σ;
  e ← get_array "noise" σ;
  f ← flux_of c p e;
  Some (alloc_assign "flux" (ONdarray f) σ).

(** [xaxis = SpectroscopicAxis(wavelength, unit='micron')] *)
Definition line54 : Stmt := fun σ =>
  w ← get_ref "wavelength" σ;
  values ← array_at w σ;
  Some (alloc_assign "xaxis" (OSpectroscopicAxis values "micron")
          (log {| callee := "SpectroscopicAxis";
                  args := [ARef w; AKw "unit" (AStr "micron")] |} σ)).

(** [sp = pyspeckit.Spectrum(data=flux, xarr=xaxis,
                             xarrkwargs={'unit': 'micron'},
                             unit='erg s⁻¹ cm⁻² µm⁻¹')] *)
Definition line55 : Stmt := fun σ =>
  f ← get_ref "flux" σ;
  data ← array_at f σ;
  x ← get_ref "xaxis" σ;
  Some (alloc_assign "sp" (OSpectrum data x)
          (log {| callee := "pyspeckit.Spectrum";
                  args := [AKw "data" (ARef f); AKw "xarr" (ARef x);
                           AKw "xarrkwargs" (ADict [("unit", AStr "micron")]);
                           AKw "unit" (AStr "erg s⁻¹ cm⁻² µm⁻¹")] |} σ)).

(** [fig = plt.figure(figsize=(10, 6))]: the new figure becomes the
    current one. *)
Definition line62 : Stmt := fun σ =>
  let σ1 := log {| callee := "plt.figure";
                   args := [AKw "figsize" (ATuple [AInt 10; AInt 6])] |} σ in
  let '(l, σ2) := alloc (OFigure 10 6) σ1 in
  Some (assign "fig" (VRef l) (set_current_figure l σ2)).

(** A call on [sp] or on [sp.plotter.axis]: [sp] must be bound. *)
Definition on_spectrum (c : loc -> Call) : Stmt := fun σ =>
  s ← get_ref "sp" σ;
  match heap σ !! s with
  | Some (OSpectrum _ _) => Some (log (c s) σ)
  | _ => None
  end.

(** [sp.plotter(figure=fig, color='k', linewidth=1.5,
               label='Synthetic spectrum')] *)
Definition line63 : Stmt := fun σ =>
  f ← get_ref "fig" σ;
  on_spectrum (fun s =>
    {| callee := "sp.plotter";
       args := [ARef s; AKw "figure" (ARef f); AKw "color" (AStr "k");
                AKw "linewidth" (AFloat 1.5);
                AKw "label" (AStr "Synthetic spectrum")] |}) σ.

(** [sp.plotter.axis.set_xlabel('Wavelength [µm]', fontsize=14)] *)
Definition line64 : Stmt :=
  on_spectrum (fun s =>
    {| callee := "sp.plotter.axis.set_xlabel";
       args := [ARef s; AStr "Wavelength [µm]"; AKw "fontsize" (AInt 14)] |}).

(** [sp.plotter.axis.set_ylabel('Normalized Flux', fontsize=14)] *)
Definition line65 : Stmt :=
  on_spectrum (fun s =>
    {| callee := "sp.plotter.axis.set_ylabel";
       args := [ARef s; AStr "Normalized Flux"; AKw "fontsize" (AInt 14)] |}).

(** [sp.plotter.axis.set_title('Mid‑infrared spectrum of a protoplanetary
                               disk', fontsize=16, pad=15)] *)
Definition line66 : Stmt :=
  on_spectrum (fun s =>
    {| callee := "sp.plotter.axis.set_title";
       args := [ARef s;
                AStr "Mid‑infrared spectrum of a protoplanetary disk";
                AKw "fontsize" (AInt 16); AKw "pad" (AInt 15)] |}).

(** [sp.plotter.axis.axvline(line_center, color='red', linestyle='--',
                             linewidth=2, alpha=0.8,
                             label='H₂O rotational line (17.22 µm)')] *)
Definition line73 : Stmt := fun σ =>
  center ← get_float "line_center" σ;
  on_spectrum (fun s =>
    {| callee := "sp.plotter.axis.axvline";
       args := [ARef s; AFloat center; AKw "color" (AStr "red");
                AKw "linestyle" (AStr "--"); AKw "linewidth" (AInt 2);
                AKw "alpha" (AFloat 0.8);
                AKw "label" (AStr "H₂O rotational line (17.22 µm)")] |}) σ.

(** [sp.data.max()]: the largest value of the spectrum's own copy of
    its data. *)
Definition spectrum_data_max (σ : State) : option float :=
  s ← get_ref "sp" σ;
  match heap σ !! s with
  | Some (OSpectrum d _) => Np.max d
  | _ => None
  end.

(** [sp.plotter.axis.annotate('H₂O 17.22 µm',
        xy=(line_center, sp.data.max() * 0.9),
        xytext=(line_center + 1.0, sp.data.max() * 0.95),
        arrowprops=dict(arrowstyle='->', color='red', lw=1.5),
        fontsize=13, color='red', ha='center')] *)
Definition line78 : Stmt := fun σ =>
  center ← get_float "line_center" σ;
  m ← spectrum_data_max σ;
  on_spectrum (fun s =>
    {| callee := "sp.plotter.axis.annotate";
       args := [ARef s; AStr "H₂O 17.22 µm";
                AKw "xy" (ATuple [AFloat center; AFloat (m * 0.9)]);
                AKw "xytext" (ATuple [AFloat (center + 1.0);
                                      AFloat (m * 0.95)]);
                AKw "arrowprops" (ADict [("arrowstyle", AStr "->");
                                         ("color", AStr "red");
                                         ("lw", AFloat 1.5)]);
                AKw "fontsize" (AInt 13); AKw "color" (AStr "red");
                AKw "ha" (AStr "center")] |}) σ.

(** [sp.plotter.axis.legend(loc='upper right', fontsize=12)] *)
Definition line85 : Stmt :=
  on_spectrum (fun s =>
    {| callee := "sp.plotter.axis.legend";
       args := [ARef s; AKw "loc" (AStr "upper right");
                AKw "fontsize" (AInt 12)] |}).

(** [sp.plotter.axis.grid(True, alpha=0.3)] *)
Definition line86 : Stmt :=
  on_spectrum (fun s =>
    {| callee := "sp.plotter.axis.grid";
       args := [ARef s; ABool true; AKw "alpha" (AFloat 0.3)] |}).

(** [plt.tight_layout()] *)
Definition line91 : Stmt := fun σ =>
  Some (log {| callee := "plt.tight_layout"; args := [] |} σ).

(** [plt.savefig('water_line_spectrum.png', dpi=150)] *)
Definition line92 : Stmt := fun σ =>
  savefig "water_line_spectrum.png" 150
    (log {| callee := "plt.savefig";
            args := [AStr "water_line_spectrum.png";
                     AKw "dpi" (AInt 150)] |} σ).

(** [print('Figure saved as water_line_spectrum.png')] *)
Definition line93 : Stmt := fun σ =>
  Some (print "Figure saved as water_line_spectrum.png" σ).

(** The body of [main] with the seed literal of line 44 as a parameter. *)
Definition body (seed : Z) : list Stmt :=
  [line24; line25; line26; line27; line33; line36; line37; line38; line40;
   line44 seed; line45; line47; line54; line55; line62; line63; line64;
   line65; line66; line73; line78; line85; line86; line91; line92; line93].

(** Statements run in order; the first exception ends the run. *)
Definition run (stmts : list Stmt) (σ : State) : option State :=
  foldl (fun acc s => acc ≫= s) (Some σ) stmts.

(** [main()] with seed [seed], started in world [w]. *)
Definition main_seeded (seed : Z) (w : World) : option State :=
  run (body seed) (initial w).

(** [main()] as written: the seed is [12345]. *)
Definition main (w : World) : option State := main_seeded 12345 w.

(** The array a local variable refers to when the run has succeeded. *)
Definition result_array (x : string) (r : option State) : option (list float) :=
  σ ← r; get_array x σ.

End Script.

(** ** What the run is expected to compute *)

(** The values the array variables of [main] hold, as closed expressions
    over the literals of the script. *)
Definition wavelength : list float :=
  Np.linspace wave_min wave_max (Z.to_nat n_points).

Definition continuum : list float := continuum_of wavelength.

Section Expected.
Context `{Numpy}.

Definition line_profile : list float :=
  line_profile_of line_ampl line_center line_width wavelength.

(** The [n_points] standard-normal draws of a generator seeded with
    [seed], and the noise array made of them. *)
Definition draws (seed : Z) : list float :=
  fst (Np.standard_normal (seed_state seed) (Z.to_nat n_points)).

Definition noise (seed : Z) : list float :=
  fst (noise_of (seed_state seed) (Z.to_nat n_points)).

Definition flux (seed : Z) : option (list float) :=
  flux_of continuum line_profile (noise seed).

(** The states after each statement of a run, in order: the history of
    the process. *)
Fixpoint history (stmts : list Stmt) (σ : State) : list (option State) :=
  match stmts with
  | [] => []
  | s :: rest =>
      match s σ with
      | Some σ' => Some σ' :: history rest σ'
      | None => [None]
      end
  end.

(** Where the variable [wavelength] points and what is stored there. *)
Definition observed_axis (r : option State) : option (loc * list float) :=
  σ ← r; l ← get_ref "wavelength" σ; a ← array_at l σ; Some (l, a).

(** The run has not raised. *)
Definition succeeded (r : option State) : bool :=
  match r with Some _ => true | None => false end.

(** What a finished run added to the outside world. *)
Definition files_written (r : option State) : option (list FileWrite) :=
  σ ← r; Some (written (world σ)).
Definition printed (r : option State) : option (list string) :=
  σ ← r; Some (stdout (world σ)).

(** The calls of a run that went to [callee]. *)
Definition calls_to (name : string) (r : option State) : option (list Call) :=
  σ ← r; Some (filter (fun c => bool_decide (callee c = name)) (calls σ)).

End Expected.

(** [needle] occurs in [line]. *)
Definition contains (needle line : string) : bool :=
  match String.index 0 needle line with Some _ => true | None => false end.

(** ** Orders and spacing on binary64 sequences *)

Section Sequences.
Local Open Scope float_scope.

(** IEEE comparisons as propositions. *)
Definition flt (x y : float) : Prop := (x <? y) = true.
Definition fle (x y : float) : Prop := (x <=? y) = true.

Definition strictly_increasing (a : list float) : Prop :=
  forall i j, (i < j)%nat -> (j < length a)%nat -> flt (nth i a 0) (nth j a 0).

(** The binary64 difference between element [i] and its successor. *)
Definition gap (a : list float) (i : nat) : float :=
  nth (S i) a 0 - nth i a 0.

(** Every pair of consecutive points differs by the same step. *)
Definition evenly_spaced (a : list float) : Prop :=
  forall i j, (S i < length a)%nat -> (S j < length a)%nat ->
              gap a i = gap a j.

(** The same two properties as boolean checks over all index pairs. *)
Definition strictly_increasingb (a : list float) : bool :=
  forallb (fun j => forallb (fun i => nth i a 0 <? nth j a 0) (seq 0 j))
          (seq 0 (length a)).

Definition gaps_withinb (lo hi : float) (a : list float) : bool :=
  forallb (fun i => (lo <=? gap a i) && (gap a i <=? hi))
          (seq 0 (length a - 1)).

Definition all_withinb (lo hi : float) (a : list float) : bool :=
  forallb (fun x => (lo <=? x) && (x <=? hi)) a.

(** The exact value of a finite binary64 number as an integer multiple of
    [2^-k]; [None] for infinities, NaN and values that are not such a
    multiple. *)
Definition scaled (k : Z) (x : float) : option Z :=
  match Prim2SF x with
  | S754_zero _ => Some 0%Z
  | S754_finite s m e =>
      if (0 <=? e + k)%Z
      then Some ((if s then -1 else 1) * (Z.pos m * 2 ^ (e + k)))%Z
      else None
  | _ => None
  end.

(** The exact difference between consecutive elements, in units of
    [2^-k]. *)
Definition exact_gap (k : Z) (a : list float) (i : nat) : option Z :=
  hi ← scaled k (nth (S i) a 0); lo ← scaled k (nth i a 0); Some (hi - lo)%Z.

(** The index of the element nearest to [x] (the first one on a tie),
    as [np.argmin(np.abs(a - x))] finds it. *)
Definition nearest_index (a : list float) (x : float) : nat :=
  snd (fold_left
         (fun best i =>
            let d := abs (nth i a 0 - x) in
            if d <? fst best then (d, i) else best)
         (seq 1 (length a - 1))
         (abs (nth 0 a 0 - x), 0%nat)).

End Sequences.

(** ** What binary64 fixes about [np.exp] *)


(** A numpy cut down to that property, to run the model on concrete
    inputs: [exp] is [0.0] in the underflow range and [1.0] elsewhere, the
    generator state is a counter and every draw is the counter itself. *)
Definition stub_numpy : Numpy :=
  {| np_exp := fun x => if (x <? -746)%float then 0%float else 1%float;
     BitGenerator := Z;
     seed_state := fun seed => seed;
     next_normal := fun g => (PrimFloat.of_uint63 (Uint63.of_Z g), (g + 1)%Z) |}.

(** The argument of [np.exp] on lines 40-41 at one wavelength. *)
Definition profile_argument (x : float) : float :=
  (- ((x - line_center) * (x - line_center))
   / (2.0 * (line_width * line_width)))%float.




(** ** Rounding in the binary64 specification *)




(** ** Observers for the heap frame and the plotting calls *)

(** A statement keeps the arrays that exist when it starts: it may allocate
    new objects, but every array already on the heap holds the same values
    afterwards. *)
Definition keeps_arrays `{Numpy} (s : Stmt) : Prop :=
  forall σ σ' l a,
    s σ = Some σ' -> (l < next σ)%nat -> array_at l σ = Some a ->
    (next σ <= next σ')%nat /\ array_at l σ' = Some a.

(** The names of the library calls of a run, in the order they were made. *)
Definition callees `{Numpy} (r : option State) : option (list string) :=
  σ ← r; Some (map callee (calls σ)).

(** What the spectrum [sp] of a finished run holds: the values of its
    data, the values of its axis object and the unit of that axis. *)
Definition plotted `{Numpy} (r : option State)
  : option (list float * list float * string) :=
  σ ← r;
  s ← get_ref "sp" σ;
  match heap σ !! s with
  | Some (OSpectrum data x) =>
      match heap σ !! x with
      | Some (OSpectroscopicAxis axis u) => Some (data, axis, u)
      | _ => None
      end
  | _ => None
  end.

(** The state a run on the stub numpy is in after its first [k]
    statements, started in an empty world. *)
Definition stub_after (k : nat) : @State stub_numpy :=
  let w := {| entropy := 0; stdout := []; written := [] |} in
  default (@initial stub_numpy w)
    (@run stub_numpy (take k (@body stub_numpy 12345))
       (@initial stub_numpy w)).

(** ** Checks by computation turned into statements *)

Section Checks.
Local Open Scope float_scope.

Lemma strictly_increasingb_sound (a : list float) :
  strictly_increasingb a = true -> strictly_increasing a.
Proof.
  unfold strictly_increasingb, strictly_increasing, flt.
  intros Hall i j Hij Hj.
  rewrite forallb_forall in Hall.
  assert (Hin : In j (seq 0 (length a))) by (apply in_seq; lia).
  specialize (Hall j Hin).
  rewrite forallb_forall in Hall.
  apply Hall, in_seq. lia.
Qed.

Lemma gaps_withinb_sound (lo hi : float) (a : list float) :
  gaps_withinb lo hi a = true ->
  forall i, (S i < length a)%nat -> fle lo (gap a i) /\ fle (gap a i) hi.
Proof.
  unfold gaps_withinb, fle. intros Hall i Hi.
  rewrite forallb_forall in Hall.
  assert (Hin : In i (seq 0 (length a - 1))) by (apply in_seq; lia).
  specialize (Hall i Hin).
  apply andb_true_iff in Hall. exact Hall.
Qed.

Lemma all_withinb_sound (lo hi : float) (a : list float) :
  all_withinb lo hi a = true -> Forall (fun x => fle lo x /\ fle x hi) a.
Proof.
  unfold all_withinb, fle. intros Hall.
  rewrite forallb_forall in Hall.
  apply Forall_forall. intros x Hx.
  apply andb_true_iff, Hall. apply list_elem_of_In. exact Hx.
Qed.

(** Distinct binary64 values are told apart by their decoding. *)
Lemma float_neq (x y : float) : Prim2SF x <> Prim2SF y -> x <> y.
Proof. intros Hne Heq. apply Hne. rewrite Heq. reflexivity. Qed.

End Checks.

(** ** What [main] leaves in its variables *)

Section Run.
Local Open Scope float_scope.
Local Open Scope string_scope.
Context `{Numpy}.

(** The five arrays of a run of [main], from any world. *)
Lemma main_arrays (w : World) :
  result_array "wavelength" (main w) = Some wavelength /\
  result_array "continuum" (main w) = Some continuum /\
  result_array "line_profile" (main w) = Some line_profile /\
  result_array "noise" (main w) = Some (noise 12345) /\
  result_array "flux" (main w) = flux 12345.
Proof. repeat split; vm_compute; reflexivity. Qed.

(** The same for any seed the generator accepts. *)
Lemma main_seeded_arrays (seed : Z) (w : World) :
  (0 <= seed)%Z ->
  result_array "wavelength" (main_seeded seed w) = Some wavelength /\
  result_array "continuum" (main_seeded seed w) = Some continuum /\
  result_array "line_profile" (main_seeded seed w) = Some line_profile /\
  result_array "noise" (main_seeded seed w) = Some (noise seed) /\
  result_array "flux" (main_seeded seed w) = flux seed.
Proof.
  intros Hseed. destruct seed as [|p|p]; [| |lia];
    repeat split; vm_compute; reflexivity.
Qed.

(** A negative seed makes [default_rng] raise: nothing is computed. *)
Lemma main_seeded_negative (seed : Z) (w : World) :
  (seed < 0)%Z -> main_seeded seed w = None.
Proof.
  intros Hseed. destruct seed as [|p|p]; [lia|lia|].
  vm_compute. reflexivity.
Qed.

End Run.

(** ** The wavelength axis *)

Section Axis.
Local Open Scope float_scope.
Local Open Scope string_scope.

(** The exact differences between the first three points, in units of
    [2^-57]: the binary64 subtractions in [gap] lose nothing here, and the
    two gaps differ. *)
Lemma axis_exact_gaps :
  exact_gap 57 wavelength 0 = Some 5776159842719744%Z /\
  scaled 57 (gap wavelength 0) = Some 5776159842719744%Z /\
  exact_gap 57 wavelength 1 = Some 5776159842719488%Z /\
  scaled 57 (gap wavelength 1) = Some 5776159842719488%Z.
Proof. repeat split; vm_compute; reflexivity. Qed.

(** C2, as stated, fails: the axis [np.linspace(10.0, 30.0, 500)] is not
    evenly spaced in binary64.  The first two consecutive differences are
    [0.040080160320641767] and [0.04008016032063999]. *)
Lemma axis_not_evenly_spaced : ~ evenly_spaced wavelength.
Proof.
  intros Heven.
  assert (H0 : (1 < length wavelength)%nat) by (vm_compute; lia).
  assert (H1 : (2 < length wavelength)%nat) by (vm_compute; lia).
  specialize (Heven 0%nat 1%nat H0 H1).
  revert Heven. apply float_neq. vm_compute. discriminate.
Qed.

(** C2, amended: in every run the axis is [np.linspace(10.0, 30.0, 500)];
    it has exactly 500 points, starts at exactly [10.0], ends at exactly
    [30.0], is strictly increasing, and is evenly spaced up to binary64
    rounding: every consecutive difference lies between
    [0.040080160320638214] and [0.040080160320641767], within [4e-15] of
    the nominal step [20/499]. *)
Theorem axis_shape `{Numpy} (w : World) :
  result_array "wavelength" (main w) = Some wavelength /\
  wavelength = Np.linspace 10 30 500 /\
  length wavelength = 500%nat /\
  nth 0 wavelength 0 = 10 /\
  nth 499 wavelength 0 = 30 /\
  strictly_increasing wavelength /\
  (forall i, (S i < 500)%nat ->
     fle 0.040080160320638214 (gap wavelength i) /\
     fle (gap wavelength i) 0.040080160320641767).
Proof.
  destruct (main_arrays w) as (Hw & _).
  split; [exact Hw|].
  split; [reflexivity|].
  split; [vm_compute; reflexivity|].
  split; [vm_compute; reflexivity|].
  split; [vm_compute; reflexivity|].
  split.
  - apply strictly_increasingb_sound. vm_compute. reflexivity.
  - intros i Hi. apply gaps_withinb_sound.
    + vm_compute. reflexivity.
    + replace (length wavelength) with 500%nat by (vm_compute; reflexivity).
      exact Hi.
Qed.

(** The amended C2 on the stub numpy, at the two ends of the axis and at
    the first gap. *)
Lemma axis_shape_witness :
  flt (nth 0 wavelength 0) (nth 499 wavelength 0) /\
  fle 0.040080160320638214 (gap wavelength 0).
Proof.
  pose proof (@axis_shape stub_numpy
                {| entropy := 0; stdout := []; written := [] |}) as Hax.
  destruct Hax as (_ & _ & _ & _ & _ & Hinc & Hgap).
  split.
  - apply Hinc; vm_compute; lia.
  - apply (Hgap 0%nat). lia.
Defined.

End Axis.

(** ** The continuum *)

Section Continuum.
Local Open Scope float_scope.
Local Open Scope string_scope.

(** C3: in every run the continuum array holds, for every sampled
    wavelength [x] and in the same order, exactly the binary64 value of
    [1.0 + 0.02 * (x - 20.0)]. *)
Theorem continuum_linear `{Numpy} (w : World) :
  result_array "wavelength" (main w) = Some wavelength /\
  result_array "continuum" (main w)
  = Some (map (fun x => 1.0 + 0.02 * (x - 20.0)) wavelength).
Proof. split; vm_compute; reflexivity. Qed.

(** C10: the continuum of every run is strictly increasing along the
    axis, index by index; its values lie in [[0.8, 1.2]], the smallest,
    [0.8], at the first point ([10] µm) and the largest, [1.2], at the last
    ([30] µm). *)
Theorem continuum_increasing `{Numpy} (w : World) :
  result_array "continuum" (main w) = Some continuum /\
  length continuum = 500%nat /\
  (forall i j, (i < j)%nat -> (j < 500)%nat ->
     flt (nth i continuum 0) (nth j continuum 0)) /\
  Forall (fun c => fle 0.8 c /\ fle c 1.2) continuum /\
  nth 0 wavelength 0 = 10 /\ nth 0 continuum 0 = 0.8 /\
  nth 499 wavelength 0 = 30 /\ nth 499 continuum 0 = 1.2.
Proof.
  destruct (main_arrays w) as (_ & Hc & _).
  split; [exact Hc|].
  split; [vm_compute; reflexivity|].
  split.
  - intros i j Hij Hj.
    apply strictly_increasingb_sound; [vm_compute; reflexivity|exact Hij|].
    replace (length continuum) with 500%nat by (vm_compute; reflexivity).
    exact Hj.
  - split; [apply all_withinb_sound; vm_compute; reflexivity|].
    repeat split; vm_compute; reflexivity.
Qed.

(** C10 on the stub numpy, at the two ends of the axis. *)
Lemma continuum_increasing_witness :
  flt (nth 0 continuum 0) (nth 499 continuum 0).
Proof.
  pose proof (@continuum_increasing stub_numpy
                {| entropy := 0; stdout := []; written := [] |}) as Hc.
  destruct Hc as (_ & _ & Hinc & _).
  apply Hinc; lia.
Defined.

End Continuum.

(** ** The flux *)

Section Flux.
Local Open Scope float_scope.
Local Open Scope string_scope.
Context `{Numpy}.

(** C1: in every run the flux is, point by point, continuum plus Gaussian
    line plus noise with the literals of the script: the axis is
    [np.linspace(10.0, 30.0, 500)], the line sits at [17.22] with width
    [0.15] and amplitude [0.3], the noise is [0.02] times the 500 draws of
    a generator seeded with [12345]; flux and axis both have 500
    elements. *)
Theorem flux_pointwise (w : World) :
  result_array "wavelength" (main w) = Some (Np.linspace 10 30 500) /\
  result_array "flux" (main w)
  = Some (map (fun xz : float * float =>
                 let (x, z) := xz in
                 1.0 + 0.02 * (x - 20.0)
                 + 0.3 * np_exp (- ((x - 17.22) * (x - 17.22))
                                 / (2.0 * (0.15 * 0.15)))
                 + 0.02 * z)
            (combine (Np.linspace 10 30 500)
               (fst (Np.standard_normal (seed_state 12345) 500)))) /\
  option_map length (result_array "flux" (main w)) = Some 500%nat /\
  option_map length (result_array "wavelength" (main w)) = Some 500%nat.
Proof. repeat split; vm_compute; reflexivity. Qed.

(** C5: the noise and the flux of a run do not depend on the world the
    run starts in (entropy of the operating system, earlier output,
    earlier files): two runs of [main] produce the same noise and the same
    flux, value for value, and so do two runs with any other common
    seed. *)
Theorem synthesis_deterministic (w1 w2 : World) :
  result_array "noise" (main w1) = Some (noise 12345) /\
  result_array "noise" (main w2) = Some (noise 12345) /\
  result_array "flux" (main w1) = result_array "flux" (main w2) /\
  is_Some (result_array "flux" (main w1)) /\
  (forall seed : Z,
     result_array "noise" (main_seeded seed w1)
     = result_array "noise" (main_seeded seed w2) /\
     result_array "flux" (main_seeded seed w1)
     = result_array "flux" (main_seeded seed w2)).
Proof.
  destruct (main_arrays w1) as (_ & _ & _ & Hn1 & Hf1).
  destruct (main_arrays w2) as (_ & _ & _ & Hn2 & Hf2).
  split; [exact Hn1|].
  split; [exact Hn2|].
  split; [rewrite Hf1, Hf2; reflexivity|].
  split.
  - rewrite Hf1.
    assert (Hsome : match flux 12345 with
                    | Some _ => true | None => false end = true)
      by (vm_compute; reflexivity).
    destruct (flux 12345) as [f|]; [eexists; reflexivity|discriminate].
  - intros seed. destruct (Z.lt_ge_cases seed 0) as [Hneg|Hpos].
    + rewrite (main_seeded_negative seed w1 Hneg).
      rewrite (main_seeded_negative seed w2 Hneg).
      split; reflexivity.
    + destruct (main_seeded_arrays seed w1 Hpos) as (_ & _ & _ & Hs1 & Hg1).
      destruct (main_seeded_arrays seed w2 Hpos) as (_ & _ & _ & Hs2 & Hg2).
      rewrite Hs1, Hs2, Hg1, Hg2. split; reflexivity.
Qed.

(** The axis does not depend on the seed: every seed the generator
    accepts leads to the same 500 wavelengths. *)
Lemma axis_independent_of_seed (s1 s2 : Z) (w : World) :
  (0 <= s1)%Z -> (0 <= s2)%Z ->
  result_array "wavelength" (main_seeded s1 w) = Some wavelength /\
  result_array "wavelength" (main_seeded s2 w) = Some wavelength.
Proof.
  intros H1 H2.
  destruct (main_seeded_arrays s1 w H1) as (Hw1 & _).
  destruct (main_seeded_arrays s2 w H2) as (Hw2 & _).
  split; assumption.
Qed.

(** Two seeds give the same flux as soon as they give the same draws:
    whether two seeds can do so is a property of the generator alone. *)
Lemma flux_follows_draws (s1 s2 : Z) (w : World) :
  (0 <= s1)%Z -> (0 <= s2)%Z ->
  draws s1 = draws s2 ->
  result_array "flux" (main_seeded s1 w)
  = result_array "flux" (main_seeded s2 w).
Proof.
  intros H1 H2 Hd.
  destruct (main_seeded_arrays s1 w H1) as (_ & _ & _ & _ & Hf1).
  destruct (main_seeded_arrays s2 w H2) as (_ & _ & _ & _ & Hf2).
  rewrite Hf1, Hf2. unfold flux, noise, noise_of. cbn [fst].
  unfold draws in Hd. rewrite Hd. reflexivity.
Qed.

(** The sample nearest to the line centre is the one of index 180, at
    [17.214428857715433]; the flux there is continuum plus line plus the
    noise of draw 180. *)
Lemma nearest_sample :
  nearest_index wavelength line_center = 180%nat /\
  nth 180 wavelength 0 = 17.214428857715433.
Proof. split; vm_compute; reflexivity. Qed.

End Flux.

(** ** Effects on the outside world and on the heap *)

Section Effects.
Local Open Scope float_scope.
Local Open Scope string_scope.
Context `{Numpy}.

(** C7: a run of [main] writes exactly one file, [water_line_spectrum.png],
    as a PNG at 150 dpi from the figure of size 10 by 6, through its one
    call of [plt.savefig]; it prints exactly one line, and that line
    contains the file name. *)
Theorem one_file_one_line (w : World) :
  files_written (main w)
  = Some (written w ++
          [{| fw_path := "water_line_spectrum.png"; fw_format := "png";
              fw_dpi := 150; fw_figsize := (10, 6) |}])%list /\
  calls_to "plt.savefig" (main w)
  = Some [{| callee := "plt.savefig";
             args := [AStr "water_line_spectrum.png";
                      AKw "dpi" (AInt 150)] |}] /\
  calls_to "plt.figure" (main w)
  = Some [{| callee := "plt.figure";
             args := [AKw "figsize" (ATuple [AInt 10; AInt 6])] |}] /\
  printed (main w)
  = Some (stdout w ++ ["Figure saved as water_line_spectrum.png"])%list /\
  contains "water_line_spectrum.png"
           "Figure saved as water_line_spectrum.png" = true.
Proof. repeat split; vm_compute; reflexivity. Qed.

(** C8: the run passes through 26 states, one after each statement, and
    none is an exception.  Before line 27 has run there is no axis.  In
    every one of the 23 states from line 27 on, the variable [wavelength]
    points to the same object, the first one allocated, and that object
    holds the same 500 values [np.linspace(10.0, 30.0, 500)]: flux
    synthesis, the pyspeckit wrappers (which copy its values), plotting,
    annotation and saving leave every element as it was. *)
Theorem axis_never_modified (w : World) :
  length (history (body 12345) (initial w)) = 26%nat /\
  forallb succeeded (history (body 12345) (initial w)) = true /\
  map observed_axis (take 3 (history (body 12345) (initial w)))
  = replicate 3 None /\
  map observed_axis (drop 3 (history (body 12345) (initial w)))
  = replicate 23 (Some (0%nat, Np.linspace 10 30 500)) /\
  observed_axis (main w) = Some (0%nat, Np.linspace 10 30 500).
Proof.
  split; [vm_compute; reflexivity|].
  split; [vm_compute; reflexivity|].
  split; [vm_compute; reflexivity|].
  split; [vm_compute; reflexivity|].
  vm_compute; reflexivity.
Qed.

(** The axis wrapper built on line 54 is an object of its own, after the
    flux in allocation order; it holds the values of the axis, in
    micron. *)
Lemma xaxis_copies_wavelength (w : World) :
  (σ ← main w; get_ref "xaxis" σ) = Some 6%nat /\
  (σ ← main w; x ← get_ref "xaxis" σ; heap σ !! x)
  = Some (OSpectroscopicAxis (Np.linspace 10 30 500) "micron").
Proof. split; vm_compute; reflexivity. Qed.

End Effects.

(** ** The Gaussian line profile *)

Section ProfileBinary64.
Local Open Scope float_scope.


(** 211 of the 500 samples lie so far from the line that the argument of
    [np.exp] is below [-746]: the 36 samples up to [11.40] µm and the 175
    samples from [23.03] µm on. *)
Lemma underflowing_samples :
  length (filter (fun x => profile_argument x <? -746) wavelength) = 211%nat /\
  forallb (fun x => profile_argument x <? -746) (take 36 wavelength) = true /\
  forallb (fun x => profile_argument x <? -746) (drop 325 wavelength) = true.
Proof. repeat split; vm_compute; reflexivity. Qed.





End ProfileBinary64.

(** ** Rounding never crosses a binary64 number *)

Section BinaryRounding.
Local Open Scope Z_scope.

















End BinaryRounding.

(** ** Binary64 facts the line profile needs *)

Section Binary64.
Local Open Scope float_scope.






End Binary64.


(** ** Subtraction is exact up to one rounding *)

Section Representation.
Local Open Scope Z_scope.













End Representation.

(** ** Equidistant wavelengths *)

Section Equidistant.
Local Open Scope float_scope.



End Equidistant.

(** ** The line profile as computed *)

Section ProfileBounds.
Local Open Scope float_scope.










End ProfileBounds.

(** ** Flux synthesis for any axis and generator *)

Section SynthesisShapes.
Local Open Scope float_scope.
Context `{Numpy}.

Lemma linspace_length (start stop : float) (num : nat) :
  length (Np.linspace start stop num) = num.
Proof.
  unfold Np.linspace, Np.arange.
  repeat match goal with
         | |- context [if ?c then _ else _] => destruct c
         end;
    rewrite ?length_insert, ?length_map, ?length_seq; reflexivity.
Qed.

Lemma linspace_last (start stop : float) (num : nat) :
  (2 <= num)%nat -> Np.linspace start stop num !! (num - 1)%nat = Some stop.
Proof.
  intros Hnum. pose proof (linspace_length start stop num) as Hlen.
  unfold Np.linspace in *.
  destruct (1 <? num)%nat eqn:Hone; [|apply Nat.ltb_ge in Hone; lia].
  rewrite length_insert in Hlen.
  apply list_lookup_insert_eq. lia.
Qed.

Lemma standard_normal_length (g : BitGenerator) (size : nat) :
  length (fst (Np.standard_normal g size)) = size.
Proof.
  revert g. induction size as [|n IH]; intros g; cbn; [reflexivity|].
  rewrite IH. reflexivity.
Qed.

Lemma add_same_length (a b : list float) :
  length a = length b ->
  Np.add a b = Some (map (fun p => fst p + snd p) (combine a b)).
Proof. intros Hlen. unfold Np.add. rewrite Hlen, Nat.eqb_refl. reflexivity. Qed.

(** Three arrays computed from two lists and added pairwise are one map
    over the zipped lists. *)
Lemma add3_pointwise (c p e : float -> float) (w z : list float) :
  map (fun q => fst q + snd q)
      (combine (map (fun q => fst q + snd q) (combine (map c w) (map p w)))
               (map e z))
  = map (fun xz : float * float => let (x, z) := xz in c x + p x + e z)
        (combine w z).
Proof.
  revert z. induction w as [|x w IH]; intros [|y z]; cbn; try reflexivity.
  rewrite IH. reflexivity.
Qed.

(** Arrays of one length add up: line 47 does not raise. *)
Lemma flux_of_length (c p e : list float) :
  length p = length c -> length e = length c ->
  exists f, flux_of c p e = Some f /\ length f = length c.
Proof.
  intros Hp He. unfold flux_of.
  rewrite (add_same_length c p) by congruence.
  cbn [mbind option_bind].
  rewrite add_same_length by (rewrite length_map, length_combine; lia).
  eexists. split; [reflexivity|].
  rewrite !length_map, !length_combine, length_map, length_combine. lia.
Qed.

(** X1: lines 27-47 with the range, the number of points, the amplitude
    and centre of the line and the state of the generator left open, and
    the width as on line 37.  Whatever those are, the axis has [num]
    points and ends exactly at [stop] when [num >= 2]; continuum, line
    profile and noise have that same length, so the two additions of line
    47 never fail to broadcast; and the flux is, point by point, continuum
    plus line plus [0.02] times the draw of the same index. *)
Theorem flux_of_any_axis (start stop : float) (num : nat)
    (ampl center : float) (g : BitGenerator) :
  length (Np.linspace start stop num) = num /\
  ((2 <= num)%nat ->
   Np.linspace start stop num !! (num - 1)%nat = Some stop) /\
  length (continuum_of (Np.linspace start stop num)) = num /\
  length (line_profile_of ampl center 0.15 (Np.linspace start stop num))
  = num /\
  length (fst (noise_of g num)) = num /\
  flux_of (continuum_of (Np.linspace start stop num))
          (line_profile_of ampl center 0.15 (Np.linspace start stop num))
          (fst (noise_of g num))
  = Some (map (fun xz : float * float =>
                 let (x, d) := xz in
                 1.0 + 0.02 * (x - 20.0)
                 + ampl * np_exp (- ((x - center) * (x - center))
                                  / (2.0 * (0.15 * 0.15)))
                 + 0.02 * d)
            (combine (Np.linspace start stop num)
                     (fst (Np.standard_normal g num)))) /\
  option_map length
    (flux_of (continuum_of (Np.linspace start stop num))
             (line_profile_of ampl center 0.15 (Np.linspace start stop num))
             (fst (noise_of g num))) = Some num.
Proof.
  set (w := Np.linspace start stop num).
  set (z := fst (Np.standard_normal g num)).
  assert (Hw : length w = num) by apply linspace_length.
  assert (Hz : length z = num) by apply standard_normal_length.
  assert (Hc : length (continuum_of w) = num).
  { unfold continuum_of, Np.scalar_add, Np.scalar_mul, Np.sub_scalar.
    rewrite !length_map. exact Hw. }
  assert (Hp : length (line_profile_of ampl center 0.15 w) = num).
  { unfold line_profile_of, Np.scalar_mul, Np.exp, Np.div_scalar, Np.neg,
      Np.square, Np.sub_scalar.
    rewrite !length_map. exact Hw. }
  assert (He : length (fst (noise_of g num)) = num).
  { unfold noise_of, Np.scalar_mul. cbn [fst]. rewrite length_map. exact Hz. }
  assert (Hflux :
    flux_of (continuum_of w) (line_profile_of ampl center 0.15 w)
            (fst (noise_of g num))
    = Some (map (fun xz : float * float =>
                   let (x, d) := xz in
                   1.0 + 0.02 * (x - 20.0)
                   + ampl * np_exp (- ((x - center) * (x - center))
                                    / (2.0 * (0.15 * 0.15)))
                   + 0.02 * d)
              (combine w z))).
  { unfold flux_of.
    rewrite (add_same_length (continuum_of w)
               (line_profile_of ampl center 0.15 w)) by congruence.
    cbn [mbind option_bind].
    rewrite add_same_length
      by (rewrite length_map, length_combine, Hc, Hp, He; lia).
    f_equal.
    unfold continuum_of, line_profile_of, noise_of, Np.scalar_add,
      Np.scalar_mul, Np.exp, Np.div_scalar, Np.neg, Np.square, Np.sub_scalar.
    cbn [fst]. fold z. rewrite !map_map.
    apply (add3_pointwise
             (fun x => 1.0 + 0.02 * (x - 20.0))
             (fun x => ampl * np_exp (- ((x - center) * (x - center))
                                      / (2.0 * (0.15 * 0.15))))
             (fun d => 0.02 * d)). }
  split; [exact Hw|].
  split; [apply linspace_last|].
  split; [exact Hc|].
  split; [exact Hp|].
  split; [exact He|].
  split; [exact Hflux|].
  rewrite Hflux. cbn [option_map]. f_equal.
  rewrite length_map, length_combine, Hw, Hz. lia.
Qed.

End SynthesisShapes.

(** ** Arrays are never overwritten *)

Section Frame.
Local Open Scope string_scope.
Context `{Numpy}.

Ltac frame_step :=
  match goal with
  | H : Some _ = Some _ |- _ => injection H as H; subst
  | H : None = Some _ |- _ => discriminate H
  | H : (_, _) = (_, _) |- _ => injection H as ? ?; subst
  | H : (_ ≫= _) = Some _ |- _ =>
      apply bind_Some in H; destruct H as (? & ? & H)
  | H : (let (_, _) := ?x in _) = Some _ |- _ => destruct x eqn:?
  | H : context [match ?x with _ => _ end] |- _ => destruct x eqn:?
  end.

Ltac frame_close :=
  unfold array_at, alloc_assign, alloc, assign, store, log, print,
    set_current_figure, set_world in *;
  cbn [heap next locals] in *;
  split; [lia|]; rewrite ?lookup_insert_ne by lia; try assumption.

Create HintDb script discriminated.
#[local] Hint Unfold line24 line25 line26 line27 line33 line36 line37 line38
  line40 line44 line45 line47 line54 line55 line62 line63 line64 line65
  line66 line73 line78 line85 line86 line91 line92 line93
  on_spectrum savefig gcf alloc_assign alloc : script.

Ltac frame :=
  unfold keeps_arrays; intros σ σ' l a Hs Hl Ha;
  autounfold with script in Hs; cbv beta iota zeta in Hs;
  repeat (frame_step; cbv beta iota zeta in * ); frame_close.

(** Line 45 updates the generator in place; the object it overwrites is a
    generator, never an array. *)
Lemma line45_keeps : keeps_arrays line45.
Proof.
  frame.
  match goal with
  | Hg : heap _ !! ?r = Some (OGenerator _)
    |- context [<[?r := _]> _ !! ?l] =>
      destruct (decide (l = r)) as [->|Hne];
      [rewrite Hg in Ha; discriminate Ha
      |rewrite lookup_insert_ne by congruence; exact Ha]
  end.
Qed.

Lemma body_keeps_arrays (seed : Z) : Forall keeps_arrays (body seed).
Proof.
  unfold body.
  repeat match goal with
         | |- Forall _ (_ :: _) => apply List.Forall_cons
         | |- Forall _ [] => apply List.Forall_nil
         end;
    match goal with
    | |- keeps_arrays line45 => apply line45_keeps
    | _ => frame
    end.
Qed.

Lemma run_keeps_arrays (stmts : list Stmt) :
  Forall keeps_arrays stmts ->
  forall σ σ' l a,
    run stmts σ = Some σ' -> (l < next σ)%nat -> array_at l σ = Some a ->
    (next σ <= next σ')%nat /\ array_at l σ' = Some a.
Proof.
  unfold run. induction 1 as [|s rest Hs _ IH]; intros σ σ' l a Hrun Hl Ha.
  - cbn in Hrun. injection Hrun as <-. split; [lia|exact Ha].
  - cbn [foldl] in Hrun. cbn [mbind option_bind] in Hrun.
    destruct (s σ) as [σ1|] eqn:Hstep.
    + destruct (Hs σ σ1 l a Hstep Hl Ha) as (Hn1 & Ha1).
      destruct (IH σ1 σ' l a Hrun ltac:(lia) Ha1) as (Hn2 & Ha2).
      split; [lia|exact Ha2].
    + exfalso. clear -Hrun. induction rest as [|t rest IHr]; cbn in Hrun.
      * discriminate.
      * apply IHr. exact Hrun.
Qed.

(** X2: no statement of [main] writes into an array that already exists.
    Take any stretch of consecutive statements of the script ([n]
    statements from the [i]-th on, for any seed literal on line 44) and any
    interpreter state to start it in: if the stretch runs without raising,
    every array allocated before it holds the same values after it, and no
    reference has been given back.  The arithmetic of lines 33-47 builds
    new arrays, the pyspeckit and matplotlib calls of lines 54-92 read the
    arrays they are given and write to none, and the one in-place update,
    the generator on line 45, cannot hit an array. *)
Theorem arrays_never_overwritten (seed : Z) (i n : nat) (σ σ' : State)
    (l : loc) (a : list float) :
  run (take n (drop i (body seed))) σ = Some σ' ->
  (l < next σ)%nat ->
  array_at l σ = Some a ->
  array_at l σ' = Some a /\ (next σ <= next σ')%nat.
Proof.
  intros Hrun Hl Ha.
  assert (Hall : Forall keeps_arrays (take n (drop i (body seed))))
    by (apply Forall_take, Forall_drop, body_keeps_arrays).
  destruct (run_keeps_arrays _ Hall σ σ' l a Hrun Hl Ha) as (Hn & Ha').
  split; [exact Ha'|exact Hn].
Qed.

End Frame.

(** X2 on the stub numpy, from the state after line 33 to the end of the
    run, for the continuum array (reference 1): the last 21 statements
    leave it as line 33 made it. *)
Lemma arrays_never_overwritten_witness :
  @array_at stub_numpy 1%nat (stub_after 26) = Some continuum /\
  (@next stub_numpy (stub_after 5) <= @next stub_numpy (stub_after 26))%nat.
Proof.
  apply (@arrays_never_overwritten stub_numpy 12345 5 21
           (stub_after 5) (stub_after 26) 1%nat continuum).
  - vm_compute. reflexivity.
  - vm_compute. lia.
  - vm_compute. reflexivity.
Defined.

(** ** The plotting calls *)

Section Plotting.
Local Open Scope float_scope.
Local Open Scope string_scope.
Context `{Numpy}.

Lemma run_raised (stmts : list Stmt) :
  foldl (fun acc s => acc ≫= s) (None : option State) stmts = None.
Proof. induction stmts as [|s rest IH]; [reflexivity|exact IH]. Qed.

Lemma run_app (first rest : list Stmt) (σ : State) :
  run (first ++ rest) σ = run first σ ≫= run rest.
Proof.
  unfold run. rewrite foldl_app.
  destruct (foldl (fun acc s => acc ≫= s) (Some σ) first) as [σ1|];
    [reflexivity|].
  apply run_raised.
Qed.

Lemma run_cons (s : Stmt) (rest : list Stmt) (σ : State) :
  run (s :: rest) σ = s σ ≫= run rest.
Proof.
  unfold run. cbn [foldl mbind option_bind].
  destruct (s σ) as [σ1|]; [reflexivity|]. apply run_raised.
Qed.

Lemma on_spectrum_logs (c : loc -> Call) (σ : State) (s x : loc)
    (d : list float) :
  get_ref "sp" σ = Some s -> heap σ !! s = Some (OSpectrum d x) ->
  on_spectrum c σ = Some (log (c s) σ).
Proof.
  intros Hs Hh. unfold on_spectrum. rewrite Hs. cbn [mbind option_bind].
  rewrite Hh. reflexivity.
Qed.

Lemma spectrum_data_max_of (σ : State) (s x : loc) (d : list float) :
  get_ref "sp" σ = Some s -> heap σ !! s = Some (OSpectrum d x) ->
  spectrum_data_max σ = Np.max d.
Proof.
  intros Hs Hh. unfold spectrum_data_max.
  rewrite Hs. cbn [mbind option_bind]. rewrite Hh. reflexivity.
Qed.

Lemma savefig_current (fname ext : string) (dpi : Z) (σ : State) (l : loc)
    (wd ht : float) :
  current_figure σ = Some l -> heap σ !! l = Some (OFigure wd ht) ->
  extension fname = Some ext ->
  savefig fname dpi σ
  = Some (set_world
            {| entropy := entropy (world σ); stdout := stdout (world σ);
               written := written (world σ) ++
                 [{| fw_path := fname; fw_format := ext; fw_dpi := dpi;
                     fw_figsize := (wd, ht) |}] |} σ).
Proof.
  intros Hc Hh He. unfold savefig, gcf. rewrite Hc, Hh, He. reflexivity.
Qed.

Ltac spectrum_call Hsp Hobj :=
  match goal with
  | |- context [on_spectrum ?c ?s] =>
      rewrite (on_spectrum_logs c s _ _ _ Hsp Hobj)
  end.

(** The flux of a run is an array of 500 values. *)
Lemma flux_has_500 (seed : Z) :
  exists f, flux seed = Some f /\ length f = 500%nat.
Proof.
  assert (Hc : length continuum = 500%nat).
  { unfold continuum, continuum_of, Np.scalar_add, Np.scalar_mul,
      Np.sub_scalar, wavelength.
    rewrite !length_map, linspace_length. reflexivity. }
  destruct (flux_of_length continuum line_profile (noise seed))
    as (f & Hf & Hlen).
  - unfold line_profile, line_profile_of, continuum, continuum_of,
      Np.scalar_add, Np.scalar_mul, Np.exp, Np.div_scalar, Np.neg,
      Np.square, Np.sub_scalar.
    rewrite !length_map. reflexivity.
  - rewrite Hc. unfold noise, noise_of, Np.scalar_mul. cbn [fst].
    rewrite length_map, standard_normal_length. reflexivity.
  - exists f. split; [exact Hf|]. rewrite Hlen. exact Hc.
Qed.

(** X3: what is plotted is the flux against the wavelength axis.  The
    data the spectrum object [sp] of line 55 holds are, value for value,
    those of the array [flux] of line 47, and the axis object it refers to
    holds the values of the array [wavelength] of line 27, in micron; both
    have 500 values. *)
Theorem spectrum_built_on_flux_and_axis (w : World) :
  exists f : list float,
    result_array "flux" (main w) = Some f /\
    result_array "wavelength" (main w) = Some (Np.linspace 10 30 500) /\
    plotted (main w) = Some (f, Np.linspace 10 30 500, "micron") /\
    length f = 500%nat /\ length (Np.linspace 10 30 500) = 500%nat.
Proof.
  destruct (flux_has_500 12345) as (f & Hf & Hlen).
  destruct (main_arrays w) as (Hw & _ & _ & _ & Hflux).
  assert (Hp : plotted (main w)
               = (f ← flux 12345; Some (f, wavelength, "micron")))
    by reflexivity.
  exists f. rewrite Hflux, Hp, Hf.
  split; [reflexivity|].
  split; [exact Hw|].
  split; [reflexivity|].
  split; [exact Hlen|apply linspace_length].
Qed.

(** X4: the library calls of a run, in order: the axis wrapper and the
    spectrum are built first, the figure is created before the plotter is
    called, labels, title, line marker, annotation, legend and grid follow,
    and [plt.savefig] is the last call, after [plt.tight_layout]; none of
    the thirteen calls is skipped and none is made twice. *)
Theorem plotting_call_order (w : World) :
  callees (main w)
  = Some ["SpectroscopicAxis"; "pyspeckit.Spectrum"; "plt.figure";
          "sp.plotter"; "sp.plotter.axis.set_xlabel";
          "sp.plotter.axis.set_ylabel"; "sp.plotter.axis.set_title";
          "sp.plotter.axis.axvline"; "sp.plotter.axis.annotate";
          "sp.plotter.axis.legend"; "sp.plotter.axis.grid";
          "plt.tight_layout"; "plt.savefig"].
Proof. vm_compute. reflexivity. Qed.

(** X5: the water line is marked where it was put.  The vertical line
    of line 73 and the arrow tip of the annotation of lines 78-83 sit at
    the line centre [17.22], the annotation text one micrometre to the
    right, at [18.22]; the arrow tip is at [0.9] and the text at [0.95] of
    the largest value of the flux array, which is what [sp.data.max()]
    reads through the spectrum object. *)
Theorem line_markers (w : World) :
  exists (f : list float) (m : float),
    result_array "flux" (main w) = Some f /\ Np.max f = Some m /\
    calls_to "sp.plotter.axis.axvline" (main w)
    = Some [{| callee := "sp.plotter.axis.axvline";
               args := [ARef 7%nat; AFloat 17.22; AKw "color" (AStr "red");
                        AKw "linestyle" (AStr "--"); AKw "linewidth" (AInt 2);
                        AKw "alpha" (AFloat 0.8);
                        AKw "label"
                          (AStr "H₂O rotational line (17.22 µm)")] |}] /\
    calls_to "sp.plotter.axis.annotate" (main w)
    = Some [{| callee := "sp.plotter.axis.annotate";
               args := [ARef 7%nat; AStr "H₂O 17.22 µm";
                        AKw "xy" (ATuple [AFloat 17.22; AFloat (m * 0.9)]);
                        AKw "xytext" (ATuple [AFloat 18.22;
                                              AFloat (m * 0.95)]);
                        AKw "arrowprops" (ADict [("arrowstyle", AStr "->");
                                                 ("color", AStr "red");
                                                 ("lw", AFloat 1.5)]);
                        AKw "fontsize" (AInt 13); AKw "color" (AStr "red");
                        AKw "ha" (AStr "center")] |}].
Proof.
  destruct (flux_has_500 12345) as (f & Hflux & Hlen).
  destruct f as [|x t]; [discriminate Hlen|]. clear Hlen.
  destruct (main_arrays w) as (_ & _ & _ & _ & Hres).
  exists (x :: t), (fold_left Np.max2 t x).
  split; [rewrite Hres; exact Hflux|].
  split; [reflexivity|].
  split; [vm_compute; reflexivity|].
  unfold main, main_seeded.
  change (body 12345)
    with (take 20 (body 12345) ++ line78 :: drop 21 (body 12345))%list.
  rewrite run_app.
  pose proof (eq_refl
    : succeeded (run (take 20 (body 12345)) (initial w)) = true) as F0.
  assert (F1 : (σ ← run (take 20 (body 12345)) (initial w);
                get_float "line_center" σ) = Some line_center)
    by (vm_compute; reflexivity).
  assert (F2 : (σ ← run (take 20 (body 12345)) (initial w);
                get_ref "sp" σ) = Some 7%nat)
    by (vm_compute; reflexivity).
  assert (F3 : (σ ← run (take 20 (body 12345)) (initial w);
                heap σ !! 7%nat)
               = (f ← flux 12345; Some (OSpectrum f 6%nat)))
    by reflexivity.
  assert (F5 : (σ ← run (take 20 (body 12345)) (initial w);
                current_figure σ) = Some 8%nat)
    by (vm_compute; reflexivity).
  assert (F6 : (σ ← run (take 20 (body 12345)) (initial w);
                heap σ !! 8%nat) = Some (OFigure 10 6))
    by (vm_compute; reflexivity).
  assert (F7 : calls_to "sp.plotter.axis.annotate"
                 (run (take 20 (body 12345)) (initial w)) = Some [])
    by (vm_compute; reflexivity).
  destruct (run (take 20 (body 12345)) (initial w)) as [σ|];
    [|discriminate F0].
  rewrite Hflux in F3.
  cbn [mbind option_bind] in F1, F2, F3, F5, F6 |- *.
  rewrite run_cons. unfold line78. rewrite F1. cbn [mbind option_bind].
  rewrite (spectrum_data_max_of σ _ _ _ F2 F3).
  cbn [mbind option_bind Np.max].
  spectrum_call F2 F3. cbn [mbind option_bind].
  change (drop 21 (body 12345)) with [line85; line86; line91; line92; line93].
  rewrite run_cons. unfold line85. spectrum_call F2 F3.
  cbn [mbind option_bind].
  rewrite run_cons. unfold line86. spectrum_call F2 F3.
  cbn [mbind option_bind].
  rewrite run_cons. unfold line91. cbn [mbind option_bind].
  rewrite run_cons. unfold line92.
  match goal with
  | |- context [savefig ?name ?dpi ?s] =>
      rewrite (savefig_current name "png" dpi s _ _ _ F5 F6 eq_refl)
  end.
  cbn [mbind option_bind].
  rewrite run_cons. unfold line93. cbn [mbind option_bind].
  unfold run. cbn [foldl].
  unfold calls_to in *. cbn [mbind option_bind] in *.
  injection F7 as F7.
  cbn [calls print set_world log].
  rewrite !filter_app, F7.
  vm_compute. reflexivity.
Qed.

End Plotting.
